(** * ChatGateway (src/src/chat/chat.gateway.ts): a shallow embedding

    The gateway owns two JS [Map]s, [rooms] and [users], and reacts to
    socket events by mutating them and emitting socket.io events.  We
    model:
    - a JS [Map] as an association list in insertion order ([JsMap.t]);
      [set] on an existing key updates in place, [delete] removes the key;
    - socket.io payloads as JSON values ([json]);
    - each emit / [client.join] as an [effect] appended to the output;
    - [Date.now()] as an explicit clock reading given to [createRoom];
    - [client.id] as a string.
    [console.log] lines are logging only and are not modelled.  The file
    contains a second, near-identical [ChatGateway] class (lines 219-387,
    without [deleteRoom], [leaveRoom] and [fetchRooms]); the embedding
    follows the first one (lines 1-217). *)

From Stdlib Require Import String List Bool Lia NArith.
From stdpp Require Import base list strings pretty.
Import ListNotations.
Open Scope string_scope.

(** ** JS [Map<string, V>] *)
Module JsMap.
Section JsMap.
Context {V : Type}.

Definition t := list (string * V).

(** [map.get(k)] *)
Fixpoint get (k : string) (m : t) : option V :=
  match m with
  | [] => None
  | (k', v) :: m' => if String.eqb k k' then Some v else get k m'
  end.

(** [map.has(k)] *)
Definition has (k : string) (m : t) : bool :=
  match get k m with Some _ => true | None => false end.

(** [map.set(k, v)]: in place when [k] is present, appended otherwise. *)
Fixpoint set (k : string) (v : V) (m : t) : t :=
  match m with
  | [] => [(k, v)]
  | (k', v') :: m' =>
      if String.eqb k k' then (k, v) :: m' else (k', v') :: set k v m'
  end.

(** [map.delete(k)] *)
Definition delete (k : string) (m : t) : t :=
  List.filter (fun p => negb (String.eqb k (fst p))) m.

(** [Array.from(map.values())] *)
Definition values (m : t) : list V := map snd m.

End JsMap.
Arguments t : clear implicits.
End JsMap.

(** ** Data *)

(** JSON as socket.io serialises emitted payloads. *)
#[warnings="-register-all"]
Inductive json :=
| JStr (s : string)
| JArr (l : list json)
| JObj (fields : list (string * json)).

(** [type Room = { roomId: string; roomName: string }] *)
Record Room := mkRoom { roomId : string; roomName : string }.

(** [type User = { userId: string; userName: string; roomId: string }];
    the third field is [userRoomId] here, [roomId] being taken by [Room]. *)
Record User := mkUser { userId : string; userName : string; userRoomId : string }.

Definition room_json (r : Room) : json :=
  JObj [("roomId", JStr (roomId r)); ("roomName", JStr (roomName r))].

Definition user_json (u : User) : json :=
  JObj [("userId", JStr (userId u)); ("userName", JStr (userName u));
        ("roomId", JStr (userRoomId u))].

(** The private fields [rooms] and [users] of the gateway.  The unused
    [groupMessages] field is never written and is left out. *)
Record ChatGateway := mkGateway {
  rooms : JsMap.t Room;
  users : JsMap.t (list User)
}.

(** The constructor. *)
Definition init : ChatGateway := mkGateway [] [].

(** A socket identifier ([client.id]). *)
Definition Socket := string.

(** What the gateway asks of the transport. *)
Inductive effect :=
| ClientEmit (client : Socket) (ev : string) (payload : json)
    (** [client.emit(ev, payload)]: to that socket only *)
| ClientToEmit (client : Socket) (room : string) (ev : string) (payload : json)
    (** [client.to(room).emit(ev, payload)]: the room, sender excluded *)
| ServerToEmit (room : string) (ev : string) (payload : json)
    (** [this.server.to(room).emit(ev, payload)]: the whole room *)
| ServerEmit (ev : string) (payload : json)
    (** [this.server.emit(ev, payload)]: every connected socket *)
| ClientJoin (client : Socket) (room : string)
    (** [client.join(room)] *).

(** ** Handlers *)

Definition room_not_found (client : Socket) (roomId : string) : effect :=
  ClientEmit client "error" (JStr ("Room " +:+ roomId +:+ " does not exist")).

(** [`room${Date.now()}`] *)
Definition new_room_id (now : N) : string := "room" +:+ pretty now.

(** [this.users.get(roomId) || []] *)
Definition users_in_room (roomId : string) (s : ChatGateway) : list User :=
  match JsMap.get roomId (users s) with Some l => l | None => [] end.

(** [createRoom({ roomName }, client)] at clock reading [now]. *)
Definition createRoom (now : N) (roomName : string) (client : Socket)
    (s : ChatGateway) : ChatGateway * list effect :=
  let roomId := new_room_id now in
  let room := mkRoom roomId roomName in
  let rooms' := JsMap.set roomId room (rooms s) in
  (mkGateway rooms' (users s),
   [ClientJoin client roomId;
    ClientEmit client "roomCreated" (room_json room);
    ServerEmit "rooms" (JArr (map room_json (JsMap.values rooms')))]).

(** [joinRoom({ userName, roomId }, client)].  [usersInRoom.push(user)]
    mutates the array stored in [users] (or the fresh [[]]), and
    [users.set] stores it: the stored list is [usersInRoom ++ [user]]. *)
Definition joinRoom (userName' roomId : string) (client : Socket)
    (s : ChatGateway) : ChatGateway * list effect :=
  if negb (JsMap.has roomId (rooms s)) then (s, [room_not_found client roomId])
  else
    let usersInRoom := users_in_room roomId s in
    let userExists := existsb (fun u => String.eqb (userName u) userName') usersInRoom in
    if userExists then
      (s, [ClientEmit client "error"
             (JStr ("User " +:+ userName' +:+ " already exists in room " +:+ roomId))])
    else
      let user := mkUser client userName' roomId in
      let usersInRoom' := (usersInRoom ++ [user])%list in
      (mkGateway (rooms s) (JsMap.set roomId usersInRoom' (users s)),
       [ClientJoin client roomId;
        ClientEmit client "joinedRoom" (JStr ("Successfully joined room: " +:+ roomId));
        ClientToEmit client roomId "userJoined" (JStr (userName' +:+ " has joined the room"));
        ServerToEmit roomId "totalUsers" (JArr (map user_json usersInRoom'))]).

(** [deleteRoom({ roomId }, client)] *)
Definition deleteRoom (roomId : string) (client : Socket)
    (s : ChatGateway) : ChatGateway * list effect :=
  if negb (JsMap.has roomId (rooms s)) then (s, [room_not_found client roomId])
  else
    let e1 := ServerToEmit roomId "roomDeleted"
                (JObj [("message", JStr ("Room " +:+ roomId +:+ " has been deleted."))]) in
    let rooms' := JsMap.delete roomId (rooms s) in
    let users' := JsMap.delete roomId (users s) in
    (mkGateway rooms' users',
     [e1; ServerEmit "rooms" (JArr (map room_json (JsMap.values rooms')))]).

(** [sendMessage({ roomId, message, userName }, client)] *)
Definition sendMessage (userName' roomId message : string) (client : Socket)
    (s : ChatGateway) : ChatGateway * list effect :=
  if negb (JsMap.has roomId (rooms s)) then (s, [room_not_found client roomId])
  else
    (s, [ServerToEmit roomId "newMessage"
           (JObj [("userId", JStr userName'); ("message", JStr message)])]).

(** [user.userId !== client.id] *)
Definition other_socket (client : Socket) (u : User) : bool :=
  negb (String.eqb (userId u) client).

(** [leaveRoom({ roomId, userName }, client)]: the stored list is the
    filtered one, the emitted [totalUsers] is the old [usersInRoom]. *)
Definition leaveRoom (roomId userName' : string) (client : Socket)
    (s : ChatGateway) : ChatGateway * list effect :=
  if negb (JsMap.has roomId (rooms s)) then (s, [room_not_found client roomId])
  else
    let usersInRoom := users_in_room roomId s in
    let updatedUsers := List.filter (other_socket client) usersInRoom in
    (mkGateway (rooms s) (JsMap.set roomId updatedUsers (users s)),
     [ClientToEmit client roomId "userLeft" (JStr (userName' +:+ " has left the room"));
      ServerToEmit roomId "totalUsers" (JArr (map user_json usersInRoom))]).

(** The body of [this.users.forEach] in [handleDisconnect], run over the
    entries in insertion order.  The callback only sets or deletes the
    key being visited, which neither reorders nor hides later entries of
    a JS [Map], so visiting the initial entry list is exact; [m] is the
    live map the callback updates. *)
Fixpoint disconnect_loop (client : Socket) (entries : JsMap.t (list User))
    (m : JsMap.t (list User)) : JsMap.t (list User) * list effect :=
  match entries with
  | [] => (m, [])
  | (roomId, usersInRoom) :: rest =>
      let updatedUsers := List.filter (other_socket client) usersInRoom in
      let '(m1, e1) :=
        if (0 <? length updatedUsers)%nat
        then (JsMap.set roomId updatedUsers m,
              [ServerToEmit roomId "totalUsers" (JArr (map user_json updatedUsers))])
        else (JsMap.delete roomId m, []) in
      let '(m2, e2) := disconnect_loop client rest m1 in
      (m2, (e1 ++ e2)%list)
  end.

(** [handleDisconnect(client)] *)
Definition handleDisconnect (client : Socket) (s : ChatGateway)
    : ChatGateway * list effect :=
  let '(users', effs) := disconnect_loop client (users s) (users s) in
  (mkGateway (rooms s) users', effs).

(** [triggerFetchAvailableRooms()] *)
Definition triggerFetchAvailableRooms (s : ChatGateway) : ChatGateway * list effect :=
  (s, [ServerEmit "getRooms" (JArr (map room_json (JsMap.values (rooms s))))]).

(** ** Events and runs *)

(** One incoming event, with the socket it came from; [OpCreateRoom]
    carries the value [Date.now()] returns during the call. *)
Inductive op :=
| OpCreateRoom (client : Socket) (now : N) (roomName : string)
| OpJoinRoom (client : Socket) (userName roomId : string)
| OpLeaveRoom (client : Socket) (roomId userName : string)
| OpSendMessage (client : Socket) (userName roomId message : string)
| OpDeleteRoom (client : Socket) (roomId : string)
| OpDisconnect (client : Socket)
| OpFetchRooms.

Definition step (s : ChatGateway) (o : op) : ChatGateway * list effect :=
  match o with
  | OpCreateRoom c now n => createRoom now n c s
  | OpJoinRoom c u r => joinRoom u r c s
  | OpLeaveRoom c r u => leaveRoom r u c s
  | OpSendMessage c u r m => sendMessage u r m c s
  | OpDeleteRoom c r => deleteRoom r c s
  | OpDisconnect c => handleDisconnect c s
  | OpFetchRooms => triggerFetchAvailableRooms s
  end.

(** Events handled one at a time (Node's single event loop). *)
Fixpoint run (s : ChatGateway) (ops : list op) : ChatGateway * list effect :=
  match ops with
  | [] => (s, [])
  | o :: ops' =>
      let '(s1, e1) := step s o in
      let '(s2, e2) := run s1 ops' in
      (s2, (e1 ++ e2)%list)
  end.

Inductive reachable : ChatGateway -> Prop :=
| reachable_init : reachable init
| reachable_step s o : reachable s -> reachable (fst (step s o)).

(** The guards at the top of each handler: [!this.rooms.has(roomId)],
    and for [joinRoom] also [userExists]. *)
Definition rejected (s : ChatGateway) (o : op) : bool :=
  match o with
  | OpJoinRoom _ u r =>
      negb (JsMap.has r (rooms s))
      || existsb (fun x => String.eqb (userName x) u) (users_in_room r s)
  | OpLeaveRoom _ r _ | OpSendMessage _ _ r _ | OpDeleteRoom _ r =>
      negb (JsMap.has r (rooms s))
  | _ => false
  end.

(** The socket an event came from. *)
Definition op_client (o : op) : option Socket :=
  match o with
  | OpCreateRoom c _ _ | OpJoinRoom c _ _ | OpLeaveRoom c _ _
  | OpSendMessage c _ _ _ | OpDeleteRoom c _ | OpDisconnect c => Some c
  | OpFetchRooms => None
  end.

(** Members of a room by socket. *)
Definition sockets_of (l : list User) : list Socket := map userId l.

(** ** Lemmas on [JsMap] *)
Module JsMapFacts.
Section Facts.
Context {V : Type}.
Implicit Types (m : JsMap.t V) (k : string) (v : V).

Lemma get_set_eq m k v : JsMap.get k (JsMap.set k v m) = Some v.
Proof.
  induction m as [|[k' v'] m IH]; simpl.
  - by rewrite String.eqb_refl.
  - destruct (String.eqb_spec k k'); simpl.
    + by rewrite String.eqb_refl.
    + destruct (String.eqb_spec k k'); [congruence|exact IH].
Qed.

Lemma get_set_ne m k k' v : k' <> k -> JsMap.get k' (JsMap.set k v m) = JsMap.get k' m.
Proof.
  intros Hne. induction m as [|[k0 v0] m IH]; simpl.
  - destruct (String.eqb_spec k' k); congruence.
  - destruct (String.eqb_spec k k0) as [->|]; simpl.
    + destruct (String.eqb_spec k' k0); congruence.
    + destruct (String.eqb_spec k' k0); [reflexivity|exact IH].
Qed.

Lemma get_delete_eq m k : JsMap.get k (JsMap.delete k m) = None.
Proof.
  unfold JsMap.delete. induction m as [|[k0 v0] m IH]; simpl; [done|].
  destruct (String.eqb_spec k k0); simpl; [exact IH|].
  destruct (String.eqb_spec k k0); [congruence|exact IH].
Qed.

Lemma get_delete_ne m k k' : k' <> k -> JsMap.get k' (JsMap.delete k m) = JsMap.get k' m.
Proof.
  intros Hne. unfold JsMap.delete. induction m as [|[k0 v0] m IH]; simpl; [done|].
  destruct (String.eqb_spec k k0) as [->|]; simpl.
  - destruct (String.eqb_spec k' k0); [congruence|exact IH].
  - destruct (String.eqb_spec k' k0); [reflexivity|exact IH].
Qed.

Lemma get_In m k v : JsMap.get k m = Some v -> In (k, v) m.
Proof.
  induction m as [|[k0 v0] m IH]; simpl; [done|].
  destruct (String.eqb_spec k k0) as [->|]; intros H.
  - injection H as ->. by left.
  - right. by apply IH.
Qed.

Lemma In_set m k v p : In p (JsMap.set k v m) -> p = (k, v) \/ In p m.
Proof.
  induction m as [|[k0 v0] m IH]; simpl.
  - intros [<-|[]]. by left.
  - destruct (String.eqb_spec k k0); simpl.
    + intros [<-|H]; [by left|by right; right].
    + intros [<-|H]; [by right; left|].
      destruct (IH H); [by left|by right; right].
Qed.

Lemma In_delete m k p : In p (JsMap.delete k m) -> In p m.
Proof. unfold JsMap.delete. intros H. by apply filter_In in H as [? _]. Qed.

Lemma has_get m k : JsMap.has k m = true -> exists v, JsMap.get k m = Some v.
Proof. unfold JsMap.has. destruct (JsMap.get k m); [eauto|done]. Qed.

End Facts.
End JsMapFacts.

Lemma users_in_room_set (rms : JsMap.t Room) (us : JsMap.t (list User))
    (r : string) (l : list User) :
  users_in_room r (mkGateway rms (JsMap.set r l us)) = l.
Proof. unfold users_in_room. simpl. by rewrite JsMapFacts.get_set_eq. Qed.

Lemma new_room_id_inj now1 now2 : new_room_id now1 = new_room_id now2 -> now1 = now2.
Proof. unfold new_room_id. intros H. apply (inj (String.append "room")) in H. by apply (inj pretty). Qed.

(** ** C1: RoomIds come from the clock *)

(** C1 (amended).  The RoomId of [createRoom] is [room] followed by the
    clock reading; two calls at distinct clock readings generate distinct
    RoomIds, and both rooms are in [rooms] afterwards. *)
Theorem createRoom_distinct_clocks (s : ChatGateway) (c1 c2 : Socket)
    (now1 now2 : N) (n1 n2 : string) (Hne : now1 <> now2) :
  let s2 := fst (createRoom now2 n2 c2 (fst (createRoom now1 n1 c1 s))) in
  new_room_id now1 <> new_room_id now2 /\
  JsMap.get (new_room_id now1) (rooms s2) = Some (mkRoom (new_room_id now1) n1) /\
  JsMap.get (new_room_id now2) (rooms s2) = Some (mkRoom (new_room_id now2) n2).
Proof.
  assert (Hid : new_room_id now1 <> new_room_id now2)
    by (intros H; apply Hne, new_room_id_inj, H).
  simpl. split; [exact Hid|split].
  - rewrite JsMapFacts.get_set_ne by auto. apply JsMapFacts.get_set_eq.
  - apply JsMapFacts.get_set_eq.
Qed.

Lemma createRoom_distinct_clocks_witness :
  (5 <> 6)%N /\
  new_room_id 5 <> new_room_id 6 /\
  JsMap.get (new_room_id 5) (rooms (fst (createRoom 6 "Games" "B" (fst (createRoom 5 "Lobby" "A" init)))))
    = Some (mkRoom (new_room_id 5) "Lobby") /\
  JsMap.get (new_room_id 6) (rooms (fst (createRoom 6 "Games" "B" (fst (createRoom 5 "Lobby" "A" init)))))
    = Some (mkRoom (new_room_id 6) "Games").
Proof.
  split; [lia|].
  apply (createRoom_distinct_clocks init "A" "B" 5 6 "Lobby" "Games"). lia.
Defined.

(** C1 (counterexample).  Two [createRoom] calls within the same
    millisecond generate the same RoomId [room5]: both [roomCreated]
    replies carry it, and the second room replaces the first in [rooms]. *)
Lemma createRoom_same_clock_collides :
  let '(s1, e1) := createRoom 5 "Lobby" "A" init in
  let '(s2, e2) := createRoom 5 "Games" "B" s1 in
  In (ClientEmit "A" "roomCreated" (room_json (mkRoom "room5" "Lobby"))) e1 /\
  In (ClientEmit "B" "roomCreated" (room_json (mkRoom "room5" "Games"))) e2 /\
  rooms s2 = [("room5", mkRoom "room5" "Games")].
Proof. vm_compute. split; [right; left; reflexivity|split; [right; left; reflexivity|reflexivity]]. Qed.

(** ** C2: rejected events *)

(** C2.  An event refused by its guard (room absent for join, leave,
    send and delete; name already in the room for join) leaves the state
    as it was and emits exactly one [error] to the requesting socket. *)
Theorem rejected_event_only_errors (s : ChatGateway) (o : op)
    (Hrej : rejected s o = true) :
  exists (c : Socket) (msg : string),
    op_client o = Some c /\ step s o = (s, [ClientEmit c "error" (JStr msg)]).
Proof.
  destruct o as [c now n|c u r|c r u|c u r m|c r|c|]; simpl in *; try discriminate;
    exists c; unfold joinRoom, leaveRoom, sendMessage, deleteRoom, room_not_found.
  - destruct (JsMap.has r (rooms s)); simpl in *; eauto.
    rewrite Hrej. eauto.
  - destruct (JsMap.has r (rooms s)); simpl in *; [discriminate|eauto].
  - destruct (JsMap.has r (rooms s)); simpl in *; [discriminate|eauto].
  - destruct (JsMap.has r (rooms s)); simpl in *; [discriminate|eauto].
Qed.

Lemma rejected_event_only_errors_witness :
  let s := fst (createRoom 5 "Lobby" "A" init) in
  rejected s (OpJoinRoom "B" "bob" "room9") = true /\
  exists (c : Socket) (msg : string),
    op_client (OpJoinRoom "B" "bob" "room9") = Some c /\
    step s (OpJoinRoom "B" "bob" "room9") = (s, [ClientEmit c "error" (JStr msg)]).
Proof.
  split; [vm_compute; reflexivity|].
  apply rejected_event_only_errors. vm_compute. reflexivity.
Defined.

(** ** Runs *)

Lemma run_cons (s : ChatGateway) (o : op) (ops : list op) :
  fst (run s (o :: ops)) = fst (run (fst (step s o)) ops).
Proof. simpl. destruct (step s o) as [s1 e1]. simpl. by destruct (run s1 ops). Qed.

(** ** Display names within a room *)

(** Every member list stored in [users] has pairwise distinct names. *)
Definition names_unique (s : ChatGateway) : Prop :=
  forall (r : string) (l : list User), In (r, l) (users s) -> NoDup (map userName l).

Lemma NoDup_map_filter {A B : Type} (f : A -> B) (p : A -> bool) (l : list A) :
  NoDup (map f l) -> NoDup (map f (List.filter p l)).
Proof.
  induction l as [|x l IH]; simpl; intros Hnd; [constructor|].
  inversion Hnd as [|? ? Hx Hl]; subst.
  destruct (p x); simpl; [|by apply IH].
  constructor; [|by apply IH].
  rewrite list_elem_of_In in Hx |- *.
  intros Hin. apply Hx. apply in_map_iff in Hin as (y & Hy & Hyin).
  apply filter_In in Hyin as [Hyin _]. rewrite <- Hy. by apply in_map.
Qed.

Lemma NoDup_snoc {A : Type} (l : list A) (x : A) :
  NoDup l -> ~ In x l -> NoDup (l ++ [x])%list.
Proof.
  induction l as [|y l IH]; simpl; intros Hnd Hx.
  - constructor; [apply not_elem_of_nil|constructor].
  - inversion Hnd as [|? ? Hy Hl]; subst. constructor.
    + rewrite list_elem_of_In in Hy |- *. rewrite in_app_iff. intros [H|[H|[]]]; [done|]. apply Hx. by left.
    + apply IH; [done|]. intros H. apply Hx. by right.
Qed.

Lemma users_in_room_unique (s : ChatGateway) (r : string) :
  names_unique s -> NoDup (map userName (users_in_room r s)).
Proof.
  unfold users_in_room. intros Hinv.
  destruct (JsMap.get r (users s)) as [l|] eqn:Hg; [|constructor].
  eapply Hinv. by apply JsMapFacts.get_In.
Qed.

Lemma disconnect_loop_keeps (P : list User -> Prop) (c : Socket)
    (HP : forall l, P l -> P (List.filter (other_socket c) l)) :
  forall entries m,
  (forall p, In p entries -> P (snd p)) -> (forall p, In p m -> P (snd p)) ->
  forall p, In p (fst (disconnect_loop c entries m)) -> P (snd p).
Proof.
  induction entries as [|[r l] entries IH]; intros m He Hm; simpl; [exact Hm|].
  assert (Hl : P l) by (apply (He (r, l)); by left).
  assert (Hrest : forall q, In q entries -> P (snd q)) by (intros q Hq; apply He; by right).
  destruct (0 <? length (List.filter (other_socket c) l))%nat.
  - specialize (IH (JsMap.set r (List.filter (other_socket c) l) m) Hrest).
    destruct (disconnect_loop _ _ _) as [m2 e2] eqn:E2. simpl.
    intros p Hp. apply IH; [|exact Hp].
    intros q Hq. destruct (JsMapFacts.In_set _ _ _ _ Hq) as [->|Hq']; [by apply HP|by apply Hm].
  - specialize (IH (JsMap.delete r m) Hrest).
    destruct (disconnect_loop _ _ _) as [m2 e2] eqn:E2. simpl.
    intros p Hp. apply IH; [|exact Hp].
    intros q Hq. by apply Hm, (JsMapFacts.In_delete _ r).
Qed.

Lemma step_names_unique (s : ChatGateway) (o : op) :
  names_unique s -> names_unique (fst (step s o)).
Proof.
  intros Hinv. destruct o as [c now n|c u r|c r u|c u r m|c r|c|]; simpl.
  - exact Hinv.
  - unfold joinRoom. destruct (negb _); [exact Hinv|].
    destruct (existsb _ _) eqn:Hex; [exact Hinv|]. simpl.
    intros r' l Hin. destruct (JsMapFacts.In_set _ _ _ _ Hin) as [Heq|Hin'].
    + injection Heq as -> ->. rewrite map_app. simpl.
      apply NoDup_snoc; [by apply users_in_room_unique|].
      intros Hu. apply in_map_iff in Hu as (x & Hx & Hxin).
      assert (existsb (fun x => String.eqb (userName x) u) (users_in_room r s) = true)
        as Ht by (apply existsb_exists; exists x; split; [done|by apply String.eqb_eq]).
      congruence.
    + by apply (Hinv r').
  - unfold leaveRoom. destruct (negb _); [exact Hinv|]. simpl.
    intros r' l Hin. destruct (JsMapFacts.In_set _ _ _ _ Hin) as [Heq|Hin'].
    + injection Heq as -> ->. by apply NoDup_map_filter, users_in_room_unique.
    + by apply (Hinv r').
  - unfold sendMessage. by destruct (negb _).
  - unfold deleteRoom. destruct (negb _); [exact Hinv|]. simpl.
    intros r' l Hin. apply (Hinv r'). by apply (JsMapFacts.In_delete _ r).
  - unfold handleDisconnect.
    assert (Hu : forall p, In p (users s) -> NoDup (map userName (snd p)))
      by (intros [r0 l0] Hp; exact (Hinv r0 l0 Hp)).
    pose proof (disconnect_loop_keeps (fun l => NoDup (map userName l)) c
                  (fun l H => NoDup_map_filter _ _ _ H) (users s) (users s) Hu Hu) as Hk.
    destruct (disconnect_loop c (users s) (users s)) as [u' e] eqn:E. simpl in *.
    intros r' l Hin. exact (Hk (r', l) Hin).
  - exact Hinv.
Qed.

Lemma run_names_unique (s : ChatGateway) (ops : list op) :
  names_unique s -> names_unique (fst (run s ops)).
Proof.
  revert s. induction ops as [|o ops IH]; intros s Hs; [exact Hs|].
  rewrite run_cons. by apply IH, step_names_unique.
Qed.

(** C3.  In every state reached from the empty gateway by any sequence
    of events, the display names in each room's member list are
    pairwise distinct. *)
Theorem reachable_room_names_distinct (ops : list op) (r : string) (l : list User) :
  In (r, l) (users (fst (run init ops))) -> NoDup (map userName l).
Proof.
  apply run_names_unique. intros r' l' [].
Qed.

Lemma reachable_room_names_distinct_witness :
  In ("room5", [mkUser "A" "alice" "room5"; mkUser "B" "bob" "room5"])
     (users (fst (run init [OpCreateRoom "A" 5 "Lobby"; OpJoinRoom "A" "alice" "room5";
                            OpJoinRoom "B" "alice" "room5"; OpJoinRoom "B" "bob" "room5"]))) /\
  NoDup (map userName [mkUser "A" "alice" "room5"; mkUser "B" "bob" "room5"]).
Proof.
  assert (H : In ("room5", [mkUser "A" "alice" "room5"; mkUser "B" "bob" "room5"])
     (users (fst (run init [OpCreateRoom "A" 5 "Lobby"; OpJoinRoom "A" "alice" "room5";
                            OpJoinRoom "B" "alice" "room5"; OpJoinRoom "B" "bob" "room5"]))))
    by (vm_compute; left; reflexivity).
  split; [exact H|]. exact (reachable_room_names_distinct _ _ _ H).
Defined.

(** ** Joining *)

(** C4.  A [joinRoom] that passes both guards appends one member: the
    room's list grows by exactly one and holds a member with the
    requester's socket. *)
Theorem joinRoom_success_appends (s : ChatGateway) (c : Socket) (u r : string)
    (Hhas : JsMap.has r (rooms s) = true)
    (Hnew : existsb (fun x => String.eqb (userName x) u) (users_in_room r s) = false) :
  let s' := fst (joinRoom u r c s) in
  length (users_in_room r s') = S (length (users_in_room r s)) /\
  exists m, In m (users_in_room r s') /\ userId m = c.
Proof.
  unfold joinRoom. rewrite Hhas, Hnew. simpl.
  rewrite users_in_room_set, length_app. simpl. split; [lia|].
  exists (mkUser c u r). split; [|reflexivity].
  apply in_or_app. right. by left.
Qed.

Lemma joinRoom_success_appends_witness :
  let s := fst (createRoom 5 "Lobby" "A" init) in
  JsMap.has "room5" (rooms s) = true /\
  existsb (fun x => String.eqb (userName x) "alice") (users_in_room "room5" s) = false /\
  length (users_in_room "room5" (fst (joinRoom "alice" "room5" "A" s)))
    = S (length (users_in_room "room5" s)) /\
  exists m, In m (users_in_room "room5" (fst (joinRoom "alice" "room5" "A" s))) /\ userId m = "A".
Proof.
  split; [vm_compute; reflexivity|split; [vm_compute; reflexivity|]].
  apply joinRoom_success_appends; vm_compute; reflexivity.
Defined.

(** C10.  One socket can be listed twice in a room: [joinRoom] only
    refuses a repeated display name, so socket [A] joining [room5] as
    [alice] and then as [bob] is stored twice. *)
Theorem same_socket_twice_in_room :
  let s := fst (run init [OpCreateRoom "A" 5 "Lobby";
                          OpJoinRoom "A" "alice" "room5";
                          OpJoinRoom "A" "bob" "room5"]) in
  users_in_room "room5" s = [mkUser "A" "alice" "room5"; mkUser "A" "bob" "room5"] /\
  count_occ String.string_dec (sockets_of (users_in_room "room5" s)) "A" = 2%nat.
Proof. vm_compute. split; reflexivity. Qed.

(** ** Leaving *)

(** C5 (counterexample).  "A [leaveRoom] on an existing room removes at
    most one member" fails: after socket [A] joined [room5] as [alice]
    and as [bob], one [leaveRoom] from [A] removes both. *)
Lemma leaveRoom_removes_two :
  ~ (forall (s : ChatGateway) (c : Socket) (r u : string),
       JsMap.has r (rooms s) = true ->
       (length (users_in_room r s) <= S (length (users_in_room r (fst (leaveRoom r u c s)))))%nat).
Proof.
  intros H.
  specialize (H (fst (run init [OpCreateRoom "A" 5 "Lobby";
                                OpJoinRoom "A" "alice" "room5";
                                OpJoinRoom "A" "bob" "room5"])) "A" "room5" "alice").
  vm_compute in H. specialize (H eq_refl). lia.
Qed.

(** C5 (amended).  A [leaveRoom] on an existing room stores the room's
    list with every member of the requester's socket removed (all of
    them, however many) and no other member removed, in order; the other
    rooms and [rooms] are untouched. *)
Theorem leaveRoom_filters_socket (s : ChatGateway) (c : Socket) (r u : string)
    (Hhas : JsMap.has r (rooms s) = true) :
  let s' := fst (leaveRoom r u c s) in
  users_in_room r s' = List.filter (other_socket c) (users_in_room r s) /\
  (forall x, In x (users_in_room r s') <-> In x (users_in_room r s) /\ userId x <> c) /\
  (forall r', r' <> r -> JsMap.get r' (users s') = JsMap.get r' (users s)) /\
  rooms s' = rooms s.
Proof.
  unfold leaveRoom. rewrite Hhas. simpl.
  rewrite users_in_room_set. split; [reflexivity|split; [|split; [|reflexivity]]].
  - intros x. rewrite filter_In. unfold other_socket.
    destruct (String.eqb_spec (userId x) c); simpl; split; intros [? ?]; by split.
  - intros r' Hr'. by apply JsMapFacts.get_set_ne.
Qed.

Lemma leaveRoom_filters_socket_witness :
  let s := fst (run init [OpCreateRoom "A" 5 "Lobby"; OpJoinRoom "A" "alice" "room5";
                          OpJoinRoom "B" "bob" "room5"]) in
  JsMap.has "room5" (rooms s) = true /\
  users_in_room "room5" (fst (leaveRoom "room5" "alice" "A" s))
    = List.filter (other_socket "A") (users_in_room "room5" s) /\
  (forall x, In x (users_in_room "room5" (fst (leaveRoom "room5" "alice" "A" s)))
             <-> In x (users_in_room "room5" s) /\ userId x <> "A") /\
  (forall r', r' <> "room5" ->
     JsMap.get r' (users (fst (leaveRoom "room5" "alice" "A" s))) = JsMap.get r' (users s)) /\
  rooms (fst (leaveRoom "room5" "alice" "A" s)) = rooms s.
Proof.
  split; [vm_compute; reflexivity|].
  apply leaveRoom_filters_socket. vm_compute. reflexivity.
Defined.

(** C6.  A [leaveRoom] on an existing room broadcasts [totalUsers] with
    the member list as it was before the removal, while the filtered
    list is what [users] stores. *)
Theorem leaveRoom_broadcasts_old_list (s : ChatGateway) (c : Socket) (r u : string)
    (Hhas : JsMap.has r (rooms s) = true) :
  snd (leaveRoom r u c s) =
    [ClientToEmit c r "userLeft" (JStr (u +:+ " has left the room"));
     ServerToEmit r "totalUsers" (JArr (map user_json (users_in_room r s)))] /\
  users_in_room r (fst (leaveRoom r u c s)) = List.filter (other_socket c) (users_in_room r s).
Proof.
  unfold leaveRoom. rewrite Hhas. simpl. by rewrite users_in_room_set.
Qed.

Lemma leaveRoom_broadcasts_old_list_witness :
  let s := fst (run init [OpCreateRoom "A" 5 "Lobby"; OpJoinRoom "A" "alice" "room5";
                          OpJoinRoom "B" "bob" "room5"]) in
  JsMap.has "room5" (rooms s) = true /\
  snd (leaveRoom "room5" "alice" "A" s) =
    [ClientToEmit "A" "room5" "userLeft" (JStr ("alice" +:+ " has left the room"));
     ServerToEmit "room5" "totalUsers" (JArr (map user_json (users_in_room "room5" s)))] /\
  users_in_room "room5" (fst (leaveRoom "room5" "alice" "A" s))
    = List.filter (other_socket "A") (users_in_room "room5" s).
Proof.
  split; [vm_compute; reflexivity|].
  apply leaveRoom_broadcasts_old_list. vm_compute. reflexivity.
Defined.

(** ** Disconnecting *)

Lemma get_not_key {V : Type} (m : JsMap.t V) (k : string) :
  ~ In k (map fst m) -> JsMap.get k m = None.
Proof.
  induction m as [|[k0 v0] m IH]; simpl; intros Hk; [done|].
  destruct (String.eqb_spec k k0) as [->|]; [exfalso; apply Hk; by left|].
  apply IH. intros H. apply Hk. by right.
Qed.

Lemma disconnect_loop_get (c : Socket) :
  forall (entries m : JsMap.t (list User)) (k : string),
  NoDup (map fst entries) ->
  JsMap.get k (fst (disconnect_loop c entries m)) =
    match JsMap.get k entries with
    | Some l => match List.filter (other_socket c) l with [] => None | f => Some f end
    | None => JsMap.get k m
    end.
Proof.
  induction entries as [|[r l] entries IH]; intros m k Hnd; simpl; [reflexivity|].
  inversion Hnd as [|? ? Hr Hrest]; subst.
  rewrite list_elem_of_In in Hr.
  assert (Hgoal : forall m1, JsMap.get k (fst (disconnect_loop c entries m1)) =
            match JsMap.get k entries with
            | Some l => match List.filter (other_socket c) l with [] => None | f => Some f end
            | None => JsMap.get k m1
            end) by (intros m1; by apply IH).
  destruct (List.filter (other_socket c) l) as [|x xs] eqn:Hf; simpl.
  - rewrite (surjective_pairing (disconnect_loop c entries (JsMap.delete r m))). simpl.
    rewrite Hgoal.
    destruct (String.eqb_spec k r) as [->|Hne].
    + rewrite get_not_key by exact Hr. rewrite ?String.eqb_refl, Hf.
      apply JsMapFacts.get_delete_eq.
    + apply String.eqb_neq in Hne. rewrite ?Hne.
      destruct (JsMap.get k entries); [reflexivity|].
      apply JsMapFacts.get_delete_ne. by apply String.eqb_neq.
  - rewrite (surjective_pairing (disconnect_loop c entries _)). simpl.
    rewrite Hgoal.
    destruct (String.eqb_spec k r) as [->|Hne].
    + rewrite get_not_key by exact Hr. rewrite ?String.eqb_refl, Hf.
      apply JsMapFacts.get_set_eq.
    + apply String.eqb_neq in Hne. rewrite ?Hne.
      destruct (JsMap.get k entries); [reflexivity|].
      apply JsMapFacts.get_set_ne. by apply String.eqb_neq.
Qed.

(** The [totalUsers] broadcast of one visited entry, if any. *)
Definition disconnect_emits (c : Socket) (p : string * list User) : list effect :=
  match List.filter (other_socket c) (snd p) with
  | [] => []
  | f => [ServerToEmit (fst p) "totalUsers" (JArr (map user_json f))]
  end.

Lemma disconnect_loop_effects (c : Socket) :
  forall (entries m : JsMap.t (list User)),
  snd (disconnect_loop c entries m) = flat_map (disconnect_emits c) entries.
Proof.
  induction entries as [|[r l] entries IH]; intros m; simpl; [reflexivity|].
  unfold disconnect_emits at 1. simpl.
  destruct (List.filter (other_socket c) l) as [|x xs]; simpl.
  - rewrite (surjective_pairing (disconnect_loop c entries _)). simpl. apply IH.
  - rewrite (surjective_pairing (disconnect_loop c entries _)). simpl. by rewrite IH.
Qed.

(** C7.  [handleDisconnect] of socket [c], for a [users] map with
    distinct keys (as every JS [Map] has): [rooms] is untouched; each
    room's list loses exactly the members of [c] (no other member); a
    room whose filtered list is non-empty stores it, one whose filtered
    list is empty loses its [users] entry; and the emitted events are,
    in map order, one [totalUsers] with the filtered list per room whose
    filtered list is non-empty. *)
Theorem handleDisconnect_sweeps (s : ChatGateway) (c : Socket)
    (Hkeys : NoDup (map fst (users s))) :
  rooms (fst (handleDisconnect c s)) = rooms s /\
  (forall r, JsMap.get r (users (fst (handleDisconnect c s))) =
     match JsMap.get r (users s) with
     | Some l => match List.filter (other_socket c) l with [] => None | f => Some f end
     | None => None
     end) /\
  snd (handleDisconnect c s) =
    flat_map (fun p =>
      match List.filter (other_socket c) (snd p) with
      | [] => []
      | f => [ServerToEmit (fst p) "totalUsers" (JArr (map user_json f))]
      end) (users s).
Proof.
  unfold handleDisconnect.
  rewrite (surjective_pairing (disconnect_loop c (users s) (users s))). simpl.
  split; [reflexivity|split].
  - intros r. rewrite disconnect_loop_get by exact Hkeys.
    by destruct (JsMap.get r (users s)).
  - apply disconnect_loop_effects.
Qed.

Lemma handleDisconnect_sweeps_witness :
  let s := fst (run init [OpCreateRoom "A" 5 "Lobby"; OpJoinRoom "A" "alice" "room5";
                          OpJoinRoom "B" "bob" "room5"; OpCreateRoom "A" 6 "Games";
                          OpJoinRoom "A" "alice" "room6"]) in
  NoDup (map fst (users s)) /\
  rooms (fst (handleDisconnect "A" s)) = rooms s /\
  (forall r, JsMap.get r (users (fst (handleDisconnect "A" s))) =
     match JsMap.get r (users s) with
     | Some l => match List.filter (other_socket "A") l with [] => None | f => Some f end
     | None => None
     end) /\
  snd (handleDisconnect "A" s) =
    flat_map (fun p =>
      match List.filter (other_socket "A") (snd p) with
      | [] => []
      | f => [ServerToEmit (fst p) "totalUsers" (JArr (map user_json f))]
      end) (users s).
Proof.
  assert (H : NoDup (map fst (users (fst (run init [OpCreateRoom "A" 5 "Lobby";
      OpJoinRoom "A" "alice" "room5"; OpJoinRoom "B" "bob" "room5";
      OpCreateRoom "A" 6 "Games"; OpJoinRoom "A" "alice" "room6"])))))
    by (vm_compute; apply NoDup_cons; split; [apply not_elem_of_cons; split;
        [discriminate|apply not_elem_of_nil]|apply NoDup_cons; split;
        [apply not_elem_of_nil|apply NoDup_nil_2]]).
  split; [exact H|]. apply handleDisconnect_sweeps. exact H.
Defined.

(** ** Deleting *)

(** C8.  A [deleteRoom] on an existing room first broadcasts
    [roomDeleted] to the room, then removes the room from both [rooms]
    and [users] in the same handler run (neither map holds it after),
    leaving every other room's entries in both maps as they were, and
    finally sends the new room list to everybody. *)
Theorem deleteRoom_removes_both (s : ChatGateway) (c : Socket) (r : string)
    (Hhas : JsMap.has r (rooms s) = true) :
  let s' := fst (deleteRoom r c s) in
  JsMap.get r (rooms s') = None /\
  JsMap.get r (users s') = None /\
  (forall r', r' <> r ->
     JsMap.get r' (rooms s') = JsMap.get r' (rooms s) /\
     JsMap.get r' (users s') = JsMap.get r' (users s)) /\
  snd (deleteRoom r c s) =
    [ServerToEmit r "roomDeleted"
       (JObj [("message", JStr ("Room " +:+ r +:+ " has been deleted."))]);
     ServerEmit "rooms" (JArr (map room_json (JsMap.values (rooms s'))))].
Proof.
  unfold deleteRoom. rewrite Hhas. simpl.
  split; [apply JsMapFacts.get_delete_eq|split; [apply JsMapFacts.get_delete_eq|split]].
  - intros r' Hne. split; by apply JsMapFacts.get_delete_ne.
  - reflexivity.
Qed.

Lemma deleteRoom_removes_both_witness :
  let s := fst (run init [OpCreateRoom "A" 5 "Lobby"; OpJoinRoom "A" "alice" "room5";
                          OpCreateRoom "B" 6 "Games"]) in
  JsMap.has "room5" (rooms s) = true /\
  JsMap.get "room5" (rooms (fst (deleteRoom "room5" "B" s))) = None /\
  JsMap.get "room5" (users (fst (deleteRoom "room5" "B" s))) = None /\
  (forall r', r' <> "room5" ->
     JsMap.get r' (rooms (fst (deleteRoom "room5" "B" s))) = JsMap.get r' (rooms s) /\
     JsMap.get r' (users (fst (deleteRoom "room5" "B" s))) = JsMap.get r' (users s)) /\
  snd (deleteRoom "room5" "B" s) =
    [ServerToEmit "room5" "roomDeleted"
       (JObj [("message", JStr ("Room " +:+ "room5" +:+ " has been deleted."))]);
     ServerEmit "rooms" (JArr (map room_json (JsMap.values (rooms (fst (deleteRoom "room5" "B" s))))))].
Proof.
  split; [vm_compute; reflexivity|].
  apply deleteRoom_removes_both. vm_compute. reflexivity.
Defined.

(** ** Sending *)

(** C9 (counterexample).  The [newMessage] payload is not
    [{ displayName: userName, message }]: its name field is [userId]. *)
Lemma sendMessage_field_not_displayName :
  ~ (forall (s : ChatGateway) (c : Socket) (u r m : string),
       JsMap.has r (rooms s) = true ->
       snd (sendMessage u r m c s) =
         [ServerToEmit r "newMessage" (JObj [("displayName", JStr u); ("message", JStr m)])]).
Proof.
  intros H.
  specialize (H (fst (createRoom 5 "Lobby" "A" init)) "A" "alice" "room5" "hi").
  vm_compute in H. specialize (H eq_refl). discriminate H.
Qed.

(** C9 (amended).  A [sendMessage] on an existing room leaves the state
    unchanged and emits exactly one [newMessage] to the whole room
    (sender included), carrying [{ userId: userName, message }]. *)
Theorem sendMessage_broadcasts_once (s : ChatGateway) (c : Socket) (u r m : string)
    (Hhas : JsMap.has r (rooms s) = true) :
  sendMessage u r m c s =
    (s, [ServerToEmit r "newMessage" (JObj [("userId", JStr u); ("message", JStr m)])]).
Proof. unfold sendMessage. by rewrite Hhas. Qed.

Lemma sendMessage_broadcasts_once_witness :
  let s := fst (createRoom 5 "Lobby" "A" init) in
  JsMap.has "room5" (rooms s) = true /\
  sendMessage "alice" "room5" "hi" "A" s =
    (s, [ServerToEmit "room5" "newMessage" (JObj [("userId", JStr "alice"); ("message", JStr "hi")])]).
Proof.
  split; [vm_compute; reflexivity|].
  apply sendMessage_broadcasts_once. vm_compute. reflexivity.
Defined.

(** * Further properties of the gateway *)

(** ** Keys of a [JsMap] *)
Module JsMapKeys.
Section Keys.
Context {V : Type}.
Implicit Types (m : JsMap.t V) (k x : string) (v : V).

Lemma keys_set_In m k v x :
  In x (map fst (JsMap.set k v m)) <-> x = k \/ In x (map fst m).
Proof.
  induction m as [|[k0 v0] m IH]; simpl.
  - split; [intros [->|[]]; by left|intros [->|[]]; by left].
  - destruct (String.eqb_spec k k0) as [->|Hne]; simpl.
    + split; [intros [->|H]; [by left|by right; right]|].
      intros [->|[->|H]]; [by left|by left|by right].
    + rewrite IH. split.
      * intros [->|[->|H]]; [by right; left|by left|by right; right].
      * intros [->|[->|H]]; [by right; left|by left|by right; right].
Qed.

Lemma keys_delete_In m k x :
  In x (map fst (JsMap.delete k m)) <-> In x (map fst m) /\ x <> k.
Proof.
  unfold JsMap.delete. rewrite !in_map_iff. split.
  - intros ([k0 v0] & Hx & Hin). apply filter_In in Hin as [Hin Hk]. simpl in *. subst.
    split; [exists (x, v0); by split|].
    intros ->. by rewrite String.eqb_refl in Hk.
  - intros [([k0 v0] & Hx & Hin) Hne]. simpl in *. subst.
    exists (x, v0). split; [done|]. apply filter_In. split; [done|].
    simpl. destruct (String.eqb_spec k x); [congruence|done].
Qed.

Lemma keys_set_NoDup m k v : NoDup (map fst m) -> NoDup (map fst (JsMap.set k v m)).
Proof.
  induction m as [|[k0 v0] m IH]; simpl; intros Hnd.
  - apply NoDup_cons. split; [apply not_elem_of_nil|apply NoDup_nil_2].
  - apply NoDup_cons in Hnd as [Hk0 Hnd].
    destruct (String.eqb_spec k k0) as [->|Hne]; simpl; apply NoDup_cons.
    + by split.
    + split; [|by apply IH]. rewrite list_elem_of_In, keys_set_In.
      rewrite list_elem_of_In in Hk0. intros [->|H]; [done|by apply Hk0].
Qed.

Lemma keys_delete_NoDup m k : NoDup (map fst m) -> NoDup (map fst (JsMap.delete k m)).
Proof. apply NoDup_map_filter. Qed.

Lemma has_In_keys m k : JsMap.has k m = true -> In k (map fst m).
Proof.
  intros H. destruct (JsMapFacts.has_get m k H) as [v Hv].
  apply JsMapFacts.get_In in Hv. by apply (in_map fst) in Hv.
Qed.

Lemma get_None_set_app m k v : JsMap.get k m = None -> JsMap.set k v m = (m ++ [(k, v)])%list.
Proof.
  induction m as [|[k0 v0] m IH]; simpl; [done|].
  destruct (String.eqb_spec k k0); [discriminate|]. intros H. by rewrite IH.
Qed.

End Keys.
End JsMapKeys.

Lemma keys_disconnect_loop (c : Socket) :
  forall (entries m : JsMap.t (list User)) x,
  In x (map fst (fst (disconnect_loop c entries m))) ->
  In x (map fst m) \/ In x (map fst entries).
Proof.
  induction entries as [|[r l] entries IH]; intros m x; simpl; [by left|].
  destruct (0 <? length (List.filter (other_socket c) l))%nat;
    rewrite (surjective_pairing (disconnect_loop c entries _)); simpl;
    intros H; apply IH in H as [H|H]; try (by right; right).
  - apply JsMapKeys.keys_set_In in H as [->|H]; [by right; left|by left].
  - apply JsMapKeys.keys_delete_In in H as [H _]. by left.
Qed.

Lemma keys_disconnect_loop_NoDup (c : Socket) :
  forall (entries m : JsMap.t (list User)),
  NoDup (map fst m) -> NoDup (map fst (fst (disconnect_loop c entries m))).
Proof.
  induction entries as [|[r l] entries IH]; intros m Hm; simpl; [done|].
  destruct (0 <? length (List.filter (other_socket c) l))%nat;
    rewrite (surjective_pairing (disconnect_loop c entries _)); simpl; apply IH.
  - by apply JsMapKeys.keys_set_NoDup.
  - by apply JsMapKeys.keys_delete_NoDup.
Qed.

Lemma disconnect_loop_keeps_at (P : string -> list User -> Prop) (c : Socket)
    (HP : forall r l, P r l -> P r (List.filter (other_socket c) l)) :
  forall entries m,
  (forall r l, In (r, l) entries -> P r l) -> (forall r l, In (r, l) m -> P r l) ->
  forall r l, In (r, l) (fst (disconnect_loop c entries m)) -> P r l.
Proof.
  induction entries as [|[r0 l0] entries IH]; intros m He Hm; simpl; [exact Hm|].
  assert (Hl : P r0 l0) by (apply He; by left).
  assert (Hrest : forall r l, In (r, l) entries -> P r l) by (intros r l H; apply He; by right).
  destruct (0 <? length (List.filter (other_socket c) l0))%nat;
    rewrite (surjective_pairing (disconnect_loop c entries _)); simpl; apply IH; try exact Hrest.
  - intros r l Hin. destruct (JsMapFacts.In_set _ _ _ _ Hin) as [Heq|H].
    + injection Heq as -> ->. by apply HP.
    + by apply Hm.
  - intros r l Hin. by apply Hm, (JsMapFacts.In_delete _ r0).
Qed.

(** ** Invariants kept by every handler *)


(** Every member list in [users] belongs to a room in [rooms]. *)
Definition users_have_rooms (s : ChatGateway) : Prop :=
  forall r, In r (map fst (users s)) -> In r (map fst (rooms s)).

(** Every stored member carries the id of the room it is stored under. *)
Definition members_tagged (s : ChatGateway) : Prop :=
  forall r l u, In (r, l) (users s) -> In u l -> userRoomId u = r.


Lemma step_users_have_rooms (s : ChatGateway) (o : op) :
  users_have_rooms s -> users_have_rooms (fst (step s o)).
Proof.
  unfold users_have_rooms. intros Hinv.
  destruct o as [c now n|c u r|c r u|c u r m|c r|c|]; simpl.
  - intros x Hx. apply JsMapKeys.keys_set_In. right. by apply Hinv.
  - unfold joinRoom. destruct (JsMap.has r (rooms s)) eqn:Hh; simpl; [|exact Hinv].
    destruct (existsb _ _); [exact Hinv|]. simpl.
    intros x Hx. apply JsMapKeys.keys_set_In in Hx as [->|Hx].
    + by apply JsMapKeys.has_In_keys.
    + by apply Hinv.
  - unfold leaveRoom. destruct (JsMap.has r (rooms s)) eqn:Hh; simpl; [|exact Hinv].
    intros x Hx. apply JsMapKeys.keys_set_In in Hx as [->|Hx].
    + by apply JsMapKeys.has_In_keys.
    + by apply Hinv.
  - unfold sendMessage. by destruct (JsMap.has r (rooms s)).
  - unfold deleteRoom. destruct (JsMap.has r (rooms s)); simpl; [|exact Hinv].
    intros x Hx. apply JsMapKeys.keys_delete_In in Hx as [Hx Hne].
    apply JsMapKeys.keys_delete_In. split; [by apply Hinv|done].
  - unfold handleDisconnect.
    rewrite (surjective_pairing (disconnect_loop c _ _)). simpl.
    intros x Hx. apply keys_disconnect_loop in Hx as [Hx|Hx]; by apply Hinv.
  - exact Hinv.
Qed.

Lemma users_in_room_In (s : ChatGateway) (r : string) (u : User) :
  In u (users_in_room r s) -> exists l, In (r, l) (users s) /\ In u l.
Proof.
  unfold users_in_room. destruct (JsMap.get r (users s)) as [l|] eqn:Hg; [|intros []].
  intros Hu. exists l. split; [by apply JsMapFacts.get_In|exact Hu].
Qed.

Lemma step_members_tagged (s : ChatGateway) (o : op) :
  members_tagged s -> members_tagged (fst (step s o)).
Proof.
  unfold members_tagged. intros Hinv.
  destruct o as [c now n|c u r|c r u|c u r m|c r|c|]; simpl.
  - exact Hinv.
  - unfold joinRoom. destruct (JsMap.has r (rooms s)); simpl; [|exact Hinv].
    destruct (existsb _ _); [exact Hinv|]. simpl.
    intros r' l x Hin Hx. destruct (JsMapFacts.In_set _ _ _ _ Hin) as [Heq|Hin'].
    + injection Heq as -> ->. apply in_app_or in Hx as [Hx|[<-|[]]]; [|reflexivity].
      destruct (users_in_room_In s r x Hx) as (l & Hl & Hxl). by apply (Hinv r l).
    + by apply (Hinv r' l).
  - unfold leaveRoom. destruct (JsMap.has r (rooms s)); simpl; [|exact Hinv].
    intros r' l x Hin Hx. destruct (JsMapFacts.In_set _ _ _ _ Hin) as [Heq|Hin'].
    + injection Heq as -> ->. apply filter_In in Hx as [Hx _].
      destruct (users_in_room_In s r x Hx) as (l & Hl & Hxl). by apply (Hinv r l).
    + by apply (Hinv r' l).
  - unfold sendMessage. by destruct (JsMap.has r (rooms s)).
  - unfold deleteRoom. destruct (JsMap.has r (rooms s)); simpl; [|exact Hinv].
    intros r' l x Hin. apply (Hinv r' l). by apply (JsMapFacts.In_delete _ r).
  - unfold handleDisconnect.
    rewrite (surjective_pairing (disconnect_loop c _ _)). simpl.
    intros r' l x Hin.
    refine (disconnect_loop_keeps_at (fun r l => forall x, In x l -> userRoomId x = r) c
              _ (users s) (users s) _ _ r' l Hin x).
    + intros r0 l0 H y Hy. apply filter_In in Hy as [Hy _]. by apply H.
    + intros r0 l0 H0 y Hy. by apply (Hinv r0 l0).
    + intros r0 l0 H0 y Hy. by apply (Hinv r0 l0).
  - exact Hinv.
Qed.

Lemma run_keeps (P : ChatGateway -> Prop) (HP : forall s o, P s -> P (fst (step s o))) :
  forall ops s, P s -> P (fst (run s ops)).
Proof.
  induction ops as [|o ops IH]; intros s Hs; [exact Hs|].
  rewrite run_cons. by apply IH, HP.
Qed.


(** X2.  In every reachable state, each room id with a member list in
    [users] is also a room of [rooms]: no member list outlives its room. *)
Theorem reachable_users_have_rooms (ops : list op) (r : string) :
  In r (map fst (users (fst (run init ops)))) ->
  In r (map fst (rooms (fst (run init ops)))).
Proof. revert r. apply (run_keeps users_have_rooms step_users_have_rooms). intros r []. Qed.

Lemma reachable_users_have_rooms_witness :
  In "room5" (map fst (users (fst (run init [OpCreateRoom "A" 5 "Lobby";
                                              OpJoinRoom "A" "alice" "room5"])))) /\
  In "room5" (map fst (rooms (fst (run init [OpCreateRoom "A" 5 "Lobby";
                                              OpJoinRoom "A" "alice" "room5"])))).
Proof.
  assert (H : In "room5" (map fst (users (fst (run init [OpCreateRoom "A" 5 "Lobby";
                                              OpJoinRoom "A" "alice" "room5"])))))
    by (vm_compute; left; reflexivity).
  split; [exact H|]. exact (reachable_users_have_rooms _ _ H).
Defined.

(** X3.  In every reachable state, every member stored under room id [r]
    has [roomId] field [r]. *)
Theorem reachable_members_tagged (ops : list op) (r : string) (l : list User) (u : User) :
  In (r, l) (users (fst (run init ops))) -> In u l -> userRoomId u = r.
Proof.
  revert r l u. apply (run_keeps members_tagged step_members_tagged). intros r l u [].
Qed.

Lemma reachable_members_tagged_witness :
  In ("room5", [mkUser "A" "alice" "room5"])
     (users (fst (run init [OpCreateRoom "A" 5 "Lobby"; OpJoinRoom "A" "alice" "room5"]))) /\
  In (mkUser "A" "alice" "room5") [mkUser "A" "alice" "room5"] /\
  userRoomId (mkUser "A" "alice" "room5") = "room5".
Proof.
  assert (H : In ("room5", [mkUser "A" "alice" "room5"])
     (users (fst (run init [OpCreateRoom "A" 5 "Lobby"; OpJoinRoom "A" "alice" "room5"]))))
    by (vm_compute; left; reflexivity).
  assert (Hu : In (mkUser "A" "alice" "room5") [mkUser "A" "alice" "room5"]) by (left; reflexivity).
  split; [exact H|split; [exact Hu|]]. exact (reachable_members_tagged _ _ _ _ H Hu).
Defined.

(** ** Creating rooms *)

(** X4.  A [createRoom] whose id is new appends the room at the end of
    [rooms], leaves [users] alone, and the [rooms] broadcast lists the
    earlier rooms in creation order followed by the new one. *)
Theorem createRoom_fresh_appends (s : ChatGateway) (now : N) (n : string) (c : Socket)
    (Hfresh : JsMap.has (new_room_id now) (rooms s) = false) :
  rooms (fst (createRoom now n c s)) = (rooms s ++ [(new_room_id now, mkRoom (new_room_id now) n)])%list /\
  users (fst (createRoom now n c s)) = users s /\
  In (ServerEmit "rooms"
        (JArr (map room_json (JsMap.values (rooms s) ++ [mkRoom (new_room_id now) n])%list)))
     (snd (createRoom now n c s)).
Proof.
  unfold JsMap.has in Hfresh.
  destruct (JsMap.get (new_room_id now) (rooms s)) eqn:Hg; [discriminate|].
  simpl. rewrite (JsMapKeys.get_None_set_app _ _ _ Hg).
  split; [reflexivity|split; [reflexivity|]].
  right; right; left. unfold JsMap.values. by rewrite map_app.
Qed.

Lemma createRoom_fresh_appends_witness :
  let s := fst (createRoom 5 "Lobby" "A" init) in
  JsMap.has (new_room_id 6) (rooms s) = false /\
  rooms (fst (createRoom 6 "Games" "B" s)) = (rooms s ++ [(new_room_id 6, mkRoom (new_room_id 6) "Games")])%list /\
  users (fst (createRoom 6 "Games" "B" s)) = users s /\
  In (ServerEmit "rooms"
        (JArr (map room_json (JsMap.values (rooms s) ++ [mkRoom (new_room_id 6) "Games"])%list)))
     (snd (createRoom 6 "Games" "B" s)).
Proof.
  split; [vm_compute; reflexivity|].
  apply createRoom_fresh_appends. vm_compute. reflexivity.
Defined.

Lemma keys_set_present {V : Type} (m : JsMap.t V) (k : string) (v : V) :
  In k (map fst m) -> map fst (JsMap.set k v m) = map fst m.
Proof.
  induction m as [|[k0 v0] m IH]; simpl; [intros []|].
  destruct (String.eqb_spec k k0) as [->|Hne]; simpl; [done|].
  intros [->|H]; [done|]. by rewrite IH.
Qed.

(** X5.  A [createRoom] whose generated id is already a room replaces
    that room in place: the keys of [rooms] keep their order, the id now
    maps to the new room, and [users] is untouched, so the old room's
    member list stays under the id. *)
Theorem createRoom_collision_in_place (s : ChatGateway) (now : N) (n : string) (c : Socket)
    (Hused : JsMap.has (new_room_id now) (rooms s) = true) :
  map fst (rooms (fst (createRoom now n c s))) = map fst (rooms s) /\
  JsMap.get (new_room_id now) (rooms (fst (createRoom now n c s)))
    = Some (mkRoom (new_room_id now) n) /\
  users (fst (createRoom now n c s)) = users s.
Proof.
  simpl. split; [|split; [apply JsMapFacts.get_set_eq|reflexivity]].
  by apply keys_set_present, JsMapKeys.has_In_keys.
Qed.

Lemma createRoom_collision_in_place_witness :
  let s := fst (run init [OpCreateRoom "A" 5 "Lobby"; OpJoinRoom "A" "alice" "room5"]) in
  JsMap.has (new_room_id 5) (rooms s) = true /\
  map fst (rooms (fst (createRoom 5 "Games" "B" s))) = map fst (rooms s) /\
  JsMap.get (new_room_id 5) (rooms (fst (createRoom 5 "Games" "B" s)))
    = Some (mkRoom (new_room_id 5) "Games") /\
  users (fst (createRoom 5 "Games" "B" s)) = users s.
Proof.
  split; [vm_compute; reflexivity|].
  apply createRoom_collision_in_place. vm_compute. reflexivity.
Defined.

(** ** Joining and leaving *)

(** X6.  A successful [joinRoom] subscribes the socket to the room and
    broadcasts [totalUsers] with exactly the list it stored (the list
    after the join, unlike [leaveRoom]). *)
Theorem joinRoom_broadcasts_new_list (s : ChatGateway) (c : Socket) (u r : string)
    (Hhas : JsMap.has r (rooms s) = true)
    (Hnew : existsb (fun x => String.eqb (userName x) u) (users_in_room r s) = false) :
  In (ClientJoin c r) (snd (joinRoom u r c s)) /\
  In (ServerToEmit r "totalUsers"
        (JArr (map user_json (users_in_room r (fst (joinRoom u r c s))))))
     (snd (joinRoom u r c s)).
Proof.
  unfold joinRoom. rewrite Hhas, Hnew. simpl. rewrite users_in_room_set.
  split; [by left|by right; right; right; left].
Qed.

Lemma joinRoom_broadcasts_new_list_witness :
  let s := fst (createRoom 5 "Lobby" "A" init) in
  JsMap.has "room5" (rooms s) = true /\
  existsb (fun x => String.eqb (userName x) "alice") (users_in_room "room5" s) = false /\
  In (ClientJoin "A" "room5") (snd (joinRoom "alice" "room5" "A" s)) /\
  In (ServerToEmit "room5" "totalUsers"
        (JArr (map user_json (users_in_room "room5" (fst (joinRoom "alice" "room5" "A" s))))))
     (snd (joinRoom "alice" "room5" "A" s)).
Proof.
  split; [vm_compute; reflexivity|split; [vm_compute; reflexivity|]].
  apply joinRoom_broadcasts_new_list; vm_compute; reflexivity.
Defined.

Lemma filter_forallb {A : Type} (p : A -> bool) (l : list A) :
  forallb p l = true -> List.filter p l = l.
Proof.
  induction l as [|x l IH]; simpl; [done|].
  intros H. apply andb_true_iff in H as [Hx Hl]. rewrite Hx. by rewrite IH.
Qed.

(** X7.  A [leaveRoom] on an existing room from a socket with no member
    there leaves the member list as it was, but always leaves an entry
    for the room in [users] (an empty one if there was none). *)
Theorem leaveRoom_non_member (s : ChatGateway) (c : Socket) (r u : string)
    (Hhas : JsMap.has r (rooms s) = true)
    (Hout : forallb (other_socket c) (users_in_room r s) = true) :
  users_in_room r (fst (leaveRoom r u c s)) = users_in_room r s /\
  JsMap.get r (users (fst (leaveRoom r u c s))) = Some (users_in_room r s).
Proof.
  unfold leaveRoom. rewrite Hhas. simpl.
  rewrite users_in_room_set, JsMapFacts.get_set_eq, filter_forallb by exact Hout.
  by split.
Qed.

Lemma leaveRoom_non_member_witness :
  let s := fst (createRoom 5 "Lobby" "A" init) in
  JsMap.has "room5" (rooms s) = true /\
  forallb (other_socket "B") (users_in_room "room5" s) = true /\
  users_in_room "room5" (fst (leaveRoom "room5" "bob" "B" s)) = users_in_room "room5" s /\
  JsMap.get "room5" (users (fst (leaveRoom "room5" "bob" "B" s))) = Some (users_in_room "room5" s).
Proof.
  split; [vm_compute; reflexivity|split; [vm_compute; reflexivity|]].
  apply leaveRoom_non_member; vm_compute; reflexivity.
Defined.

(** X8.  For a socket with no member in an existing room, a successful
    [joinRoom] followed by a [leaveRoom] of the same socket gives back
    the room's member list, and no other room's list changes. *)
Theorem join_then_leave_restores (s : ChatGateway) (c : Socket) (u u' r : string)
    (Hhas : JsMap.has r (rooms s) = true)
    (Hnew : existsb (fun x => String.eqb (userName x) u) (users_in_room r s) = false)
    (Hout : forallb (other_socket c) (users_in_room r s) = true) :
  let s2 := fst (leaveRoom r u' c (fst (joinRoom u r c s))) in
  users_in_room r s2 = users_in_room r s /\
  (forall r', r' <> r -> JsMap.get r' (users s2) = JsMap.get r' (users s)) /\
  rooms s2 = rooms s.
Proof.
  unfold joinRoom. rewrite Hhas, Hnew. simpl.
  unfold leaveRoom. simpl. rewrite Hhas. simpl.
  rewrite !users_in_room_set, List.filter_app, filter_forallb by exact Hout.
  unfold other_socket at 1. simpl. rewrite String.eqb_refl. simpl.
  rewrite app_nil_r. split; [reflexivity|split; [|reflexivity]].
  intros r' Hne. rewrite !JsMapFacts.get_set_ne by exact Hne. reflexivity.
Qed.

Lemma join_then_leave_restores_witness :
  let s := fst (run init [OpCreateRoom "A" 5 "Lobby"; OpJoinRoom "A" "alice" "room5"]) in
  JsMap.has "room5" (rooms s) = true /\
  existsb (fun x => String.eqb (userName x) "bob") (users_in_room "room5" s) = false /\
  forallb (other_socket "B") (users_in_room "room5" s) = true /\
  users_in_room "room5" (fst (leaveRoom "room5" "bob" "B" (fst (joinRoom "bob" "room5" "B" s))))
    = users_in_room "room5" s /\
  (forall r', r' <> "room5" ->
     JsMap.get r' (users (fst (leaveRoom "room5" "bob" "B" (fst (joinRoom "bob" "room5" "B" s)))))
     = JsMap.get r' (users s)) /\
  rooms (fst (leaveRoom "room5" "bob" "B" (fst (joinRoom "bob" "room5" "B" s)))) = rooms s.
Proof.
  split; [vm_compute; reflexivity|split; [vm_compute; reflexivity|split; [vm_compute; reflexivity|]]].
  apply join_then_leave_restores; vm_compute; reflexivity.
Defined.

(** ** Deleting and disconnecting *)

(** X9.  After [deleteRoom r], whether or not [r] existed, every later
    [joinRoom], [leaveRoom], [sendMessage] and [deleteRoom] naming [r] is
    refused by its room-not-found guard. *)
Theorem deleted_room_refuses (s : ChatGateway) (c c' : Socket) (r u m : string) :
  let s' := fst (deleteRoom r c s) in
  rejected s' (OpJoinRoom c' u r) = true /\
  rejected s' (OpLeaveRoom c' r u) = true /\
  rejected s' (OpSendMessage c' u r m) = true /\
  rejected s' (OpDeleteRoom c' r) = true.
Proof.
  unfold deleteRoom.
  destruct (JsMap.has r (rooms s)) eqn:Hh; simpl.
  - unfold JsMap.has. rewrite JsMapFacts.get_delete_eq. simpl. by repeat split.
  - rewrite Hh. simpl. by repeat split.
Qed.

Lemma get_In_NoDup {V : Type} (m : JsMap.t V) (k : string) (v : V) :
  NoDup (map fst m) -> In (k, v) m -> JsMap.get k m = Some v.
Proof.
  induction m as [|[k0 v0] m IH]; simpl; [intros _ []|].
  intros Hnd Hin. apply NoDup_cons in Hnd as [Hk0 Hnd]. rewrite list_elem_of_In in Hk0.
  destruct Hin as [Heq|Hin].
  - injection Heq as -> ->. by rewrite String.eqb_refl.
  - destruct (String.eqb_spec k k0) as [->|]; [|by apply IH].
    exfalso. apply Hk0. by apply (in_map fst) in Hin.
Qed.

Lemma filter_idem {A : Type} (p : A -> bool) (l : list A) :
  List.filter p (List.filter p l) = List.filter p l.
Proof.
  induction l as [|x l IH]; simpl; [done|].
  destruct (p x) eqn:Hx; simpl; [rewrite Hx|]; by rewrite IH.
Qed.

Lemma handleDisconnect_get (s : ChatGateway) (c : Socket) (r : string) :
  NoDup (map fst (users s)) ->
  JsMap.get r (users (fst (handleDisconnect c s))) =
    match JsMap.get r (users s) with
    | Some l => match List.filter (other_socket c) l with [] => None | f => Some f end
    | None => None
    end.
Proof.
  intros Hk. unfold handleDisconnect.
  rewrite (surjective_pairing (disconnect_loop c (users s) (users s))). simpl.
  rewrite disconnect_loop_get by exact Hk. by destruct (JsMap.get r (users s)).
Qed.

Lemma handleDisconnect_keys (s : ChatGateway) (c : Socket) :
  NoDup (map fst (users s)) -> NoDup (map fst (users (fst (handleDisconnect c s)))).
Proof.
  intros Hk. unfold handleDisconnect.
  rewrite (surjective_pairing (disconnect_loop c (users s) (users s))). simpl.
  by apply keys_disconnect_loop_NoDup.
Qed.

(** X10.  [handleDisconnect] is idempotent on the state: sweeping the
    same socket a second time changes neither map (it only repeats the
    [totalUsers] broadcasts). *)
Theorem handleDisconnect_idempotent (s : ChatGateway) (c : Socket)
    (Hkeys : NoDup (map fst (users s))) :
  let s1 := fst (handleDisconnect c s) in
  rooms (fst (handleDisconnect c s1)) = rooms s1 /\
  (forall r, JsMap.get r (users (fst (handleDisconnect c s1))) = JsMap.get r (users s1)).
Proof.
  intros s1. split.
  { unfold handleDisconnect at 1.
    by rewrite (surjective_pairing (disconnect_loop c (users s1) (users s1))). }
  intros r.
  rewrite (handleDisconnect_get s1 c r (handleDisconnect_keys s c Hkeys)).
  unfold s1. rewrite (handleDisconnect_get s c r Hkeys).
  destruct (JsMap.get r (users s)) as [l|]; [|reflexivity].
  destruct (List.filter (other_socket c) l) as [|x xs] eqn:Hf; [reflexivity|].
  rewrite <- Hf, filter_idem, Hf. reflexivity.
Qed.

Lemma handleDisconnect_idempotent_witness :
  let s := fst (run init [OpCreateRoom "A" 5 "Lobby"; OpJoinRoom "A" "alice" "room5";
                          OpJoinRoom "B" "bob" "room5"]) in
  NoDup (map fst (users s)) /\
  rooms (fst (handleDisconnect "A" (fst (handleDisconnect "A" s))))
    = rooms (fst (handleDisconnect "A" s)) /\
  (forall r, JsMap.get r (users (fst (handleDisconnect "A" (fst (handleDisconnect "A" s)))))
             = JsMap.get r (users (fst (handleDisconnect "A" s)))).
Proof.
  assert (H : NoDup (map fst (users (fst (run init [OpCreateRoom "A" 5 "Lobby";
      OpJoinRoom "A" "alice" "room5"; OpJoinRoom "B" "bob" "room5"])))))
    by (vm_compute; apply NoDup_cons; split; [apply not_elem_of_nil|apply NoDup_nil_2]).
  split; [exact H|]. exact (handleDisconnect_idempotent _ "A" H).
Defined.

(** X11.  After [handleDisconnect c] every member list left in [users]
    is non-empty and has no member of socket [c]; empty lists, such as
    those [leaveRoom] leaves, are removed too. *)
Theorem handleDisconnect_leaves_no_empty (s : ChatGateway) (c : Socket)
    (Hkeys : NoDup (map fst (users s))) (r : string) (l : list User)
    (Hin : In (r, l) (users (fst (handleDisconnect c s)))) :
  l <> [] /\ (forall x, In x l -> userId x <> c).
Proof.
  pose proof (get_In_NoDup _ _ _ (handleDisconnect_keys s c Hkeys) Hin) as Hg.
  rewrite handleDisconnect_get in Hg by exact Hkeys.
  destruct (JsMap.get r (users s)) as [l0|]; [|discriminate].
  destruct (List.filter (other_socket c) l0) as [|y ys] eqn:Hf; [discriminate|].
  injection Hg as <-. split; [discriminate|].
  intros x Hx. rewrite <- Hf in Hx. apply filter_In in Hx as [_ Hx].
  unfold other_socket in Hx. destruct (String.eqb_spec (userId x) c); [discriminate|done].
Qed.

Lemma handleDisconnect_leaves_no_empty_witness :
  let s := fst (run init [OpCreateRoom "A" 5 "Lobby"; OpJoinRoom "A" "alice" "room5";
                          OpJoinRoom "B" "bob" "room5"]) in
  NoDup (map fst (users s)) /\
  In ("room5", [mkUser "B" "bob" "room5"]) (users (fst (handleDisconnect "A" s))) /\
  [mkUser "B" "bob" "room5"] <> [] /\
  (forall x, In x [mkUser "B" "bob" "room5"] -> userId x <> "A").
Proof.
  assert (H : NoDup (map fst (users (fst (run init [OpCreateRoom "A" 5 "Lobby";
      OpJoinRoom "A" "alice" "room5"; OpJoinRoom "B" "bob" "room5"])))))
    by (vm_compute; apply NoDup_cons; split; [apply not_elem_of_nil|apply NoDup_nil_2]).
  assert (Hin : In ("room5", [mkUser "B" "bob" "room5"])
     (users (fst (handleDisconnect "A" (fst (run init [OpCreateRoom "A" 5 "Lobby";
      OpJoinRoom "A" "alice" "room5"; OpJoinRoom "B" "bob" "room5"]))))))
    by (vm_compute; left; reflexivity).
  split; [exact H|split; [exact Hin|]].
  exact (handleDisconnect_leaves_no_empty _ "A" H _ _ Hin).
Defined.

Lemma get_of_In {V : Type} (m : JsMap.t V) (k : string) (v : V) :
  In (k, v) m -> exists v', JsMap.get k m = Some v'.
Proof.
  induction m as [|[k0 v0] m IH]; simpl; [intros []|].
  destruct (String.eqb_spec k k0); [eauto|]. intros [Heq|Hin]; [congruence|by apply IH].
Qed.

(** X12.  In a state where every member list has its room (as in every
    reachable state, X2), a room created under a new id starts with no
    members, and a first [joinRoom] into it from any socket under any
    name succeeds with that socket as the only member. *)
Theorem create_then_join (s : ChatGateway) (now : N) (n u : string) (c c' : Socket)
    (Hinv : forall r, In r (map fst (users s)) -> In r (map fst (rooms s)))
    (Hfresh : JsMap.has (new_room_id now) (rooms s) = false) :
  let s1 := fst (createRoom now n c s) in
  users_in_room (new_room_id now) s1 = [] /\
  users_in_room (new_room_id now) (fst (joinRoom u (new_room_id now) c' s1))
    = [mkUser c' u (new_room_id now)].
Proof.
  assert (Hnone : users_in_room (new_room_id now) s = []).
  { unfold users_in_room.
    destruct (JsMap.get (new_room_id now) (users s)) as [l|] eqn:Hg; [|reflexivity].
    exfalso. apply JsMapFacts.get_In, (in_map fst) in Hg. apply Hinv in Hg.
    apply in_map_iff in Hg as ([k v] & Hk & Hkin). simpl in Hk. subst k.
    destruct (get_of_In _ _ _ Hkin) as [v' Hv'].
    unfold JsMap.has in Hfresh. rewrite Hv' in Hfresh. discriminate. }
  simpl. split; [exact Hnone|].
  unfold joinRoom. simpl. unfold JsMap.has at 1. rewrite JsMapFacts.get_set_eq. simpl.
  change (users_in_room (new_room_id now) (mkGateway _ (users s)))
    with (users_in_room (new_room_id now) s).
  rewrite Hnone. simpl. by rewrite users_in_room_set.
Qed.

Lemma create_then_join_witness :
  let s := fst (run init [OpCreateRoom "A" 5 "Lobby"; OpJoinRoom "A" "alice" "room5"]) in
  (forall r, In r (map fst (users s)) -> In r (map fst (rooms s))) /\
  JsMap.has (new_room_id 6) (rooms s) = false /\
  users_in_room (new_room_id 6) (fst (createRoom 6 "Games" "B" s)) = [] /\
  users_in_room (new_room_id 6) (fst (joinRoom "carol" (new_room_id 6) "C" (fst (createRoom 6 "Games" "B" s))))
    = [mkUser "C" "carol" (new_room_id 6)].
Proof.
  assert (Hinv : forall r,
    In r (map fst (users (fst (run init [OpCreateRoom "A" 5 "Lobby"; OpJoinRoom "A" "alice" "room5"])))) ->
    In r (map fst (rooms (fst (run init [OpCreateRoom "A" 5 "Lobby"; OpJoinRoom "A" "alice" "room5"])))))
    by (vm_compute; intros r [<-|[]]; left; reflexivity).
  assert (Hf : JsMap.has (new_room_id 6)
    (rooms (fst (run init [OpCreateRoom "A" 5 "Lobby"; OpJoinRoom "A" "alice" "room5"]))) = false)
    by (vm_compute; reflexivity).
  split; [exact Hinv|split; [exact Hf|]].
  exact (create_then_join _ 6 "Games" "carol" "B" "C" Hinv Hf).
Defined.
